(** * atlasapi.cloud_backup: the snapshot record and its parser

    A shallow embedding of [src/atlasapi/cloud_backup.py]: the two
    enumerations it declares, the tolerant date helper [try_date], the
    [CloudBackupSnapshot] class with its constructor and the class method
    [from_dict], followed by the properties of the parser.

    Python values are dynamically typed, so record fields and mapping
    values live in one universe [pyval].  Exceptions are explicit: a
    computation either returns a value or raises an exception class, and
    the only side effect of the module, the debug log, is threaded as
    state. *)

From stdpp Require Import base strings gmap.
From Stdlib Require Import ZArith Ascii String.

#[local] Set Warnings "-register-all".
#[local] Open Scope string_scope.
#[local] Open Scope Z_scope.
#[local] Open Scope list_scope.

(** ** Strings

    A [str] is held as the bytes of its UTF-8 encoding, so that equal
    texts are equal strings.  [str.upper] maps a text character by
    character.  On the characters of ASCII it moves the letters a-z to A-Z
    and keeps the rest.  Beyond ASCII it follows the case mapping of
    Unicode, a table of the interpreter that is not part of the sources
    and may give more than one character for one ('ß' becomes 'SS'): the
    table is a parameter, [unicode_upper], from the encoding of one
    character beyond ASCII to the encoding of its upper-case form. *)

Definition char_upper (c : ascii) : ascii :=
  let n := N_of_ascii c in
  if ((97 <=? n) && (n <=? 122))%N then ascii_of_N (n - 32) else c.

Definition char_lower (c : ascii) : ascii :=
  let n := N_of_ascii c in
  if ((65 <=? n) && (n <=? 90))%N then ascii_of_N (n + 32) else c.

(** A byte below 128 encodes an ASCII character on its own. *)
Definition is_ascii_byte (c : ascii) : bool := (N_of_ascii c <? 128)%N.

(** A byte from 128 to 191 continues the encoding of a character. *)
Definition is_continuation_byte (c : ascii) : bool :=
  let n := N_of_ascii c in ((128 <=? n) && (n <? 192))%N.

Section upper.
Context (unicode_upper : string → string).

(** The upper-case form of the character beyond ASCII whose bytes were
    gathered in [c], nothing when none were. *)
Definition upper_pending (c : string) : string :=
  match c with
  | EmptyString => EmptyString
  | _ => unicode_upper c
  end.

(** [upper_from c s]: the upper-case form of [s], [c] holding the bytes
    read so far of a character beyond ASCII. *)
Fixpoint upper_from (c : string) (s : string) : string :=
  match s with
  | EmptyString => upper_pending c
  | String b s' =>
      if is_ascii_byte b then
        String.append (upper_pending c)
          (String (char_upper b) (upper_from EmptyString s'))
      else if is_continuation_byte b then
        upper_from (String.append c (String b EmptyString)) s'
      else
        String.append (upper_pending c) (upper_from (String b EmptyString) s')
  end.

Definition upper (s : string) : string := upper_from EmptyString s.
End upper.

(** The lower-case form of the ASCII letters of a text, used to compare
    texts up to the case of these letters. *)
Fixpoint lower (s : string) : string :=
  match s with
  | EmptyString => EmptyString
  | String c s' => String (char_lower c) (lower s')
  end.

(** Two texts match up to letter case when they agree once the case of
    their ASCII letters is forgotten; what they hold beyond ASCII is then
    the same in both. *)
Definition same_up_to_case (s t : string) : Prop := lower s = lower t.

(** ** Exceptions

    Only the class of an exception matters to the handlers of the module.
    [mro] lists a class with its ancestors, as [except] clauses match
    subclasses too ([ParserError] is dateutil's subclass of
    [ValueError]). *)

Inductive exn :=
| Exception
| LookupError
| KeyError
| ValueError
| ParserError
| TypeError
| AttributeError
| ArithmeticError
| OverflowError.

#[global] Instance exn_eq_dec : EqDecision exn.
Proof. solve_decision. Defined.

Definition mro (e : exn) : list exn :=
  match e with
  | Exception => [Exception]
  | LookupError => [LookupError; Exception]
  | KeyError => [KeyError; LookupError; Exception]
  | ValueError => [ValueError; Exception]
  | ParserError => [ParserError; ValueError; Exception]
  | TypeError => [TypeError; Exception]
  | AttributeError => [AttributeError; Exception]
  | ArithmeticError => [ArithmeticError; Exception]
  | OverflowError => [OverflowError; ArithmeticError; Exception]
  end.

Definition issubclass (e c : exn) : bool := bool_decide (c ∈ mro e).

(** [isinstance e classes]: does a clause [except (c1, ..., cn)] catch [e]? *)
Definition isinstance (e : exn) (classes : list exn) : bool :=
  existsb (issubclass e) classes.

Inductive result (A : Type) :=
| Ok (a : A)
| Raise (e : exn).
Arguments Ok {A} a.
Arguments Raise {A} e.

(** ** Enumerations *)

(** An [Enum] class: its members in definition order and their names.
    [E[name]] goes through the member map, keyed by name. *)
Class PyEnum (E : Type) := {
  enum_members : list E;
  enum_name : E → string
}.

Definition member_named {E} `{PyEnum E} (name : string) : option E :=
  List.find (λ m, String.eqb (enum_name m) name) enum_members.

Inductive SnapshotType := ONDEMAND | SCHEDULED.

Definition SnapshotType_value (m : SnapshotType) : string :=
  match m with
  | ONDEMAND => "On Demand"
  | SCHEDULED => "Scheduled"
  end.

#[global] Instance SnapshotType_enum : PyEnum SnapshotType := {|
  enum_members := [ONDEMAND; SCHEDULED];
  enum_name m := match m with
                 | ONDEMAND => "ONDEMAND"
                 | SCHEDULED => "SCHEDULED"
                 end
|}.

Inductive SnapshotStatus := QUEUED | INPROGRESS | COMPLETED | FAILED.

Definition SnapshotStatus_value (m : SnapshotStatus) : string :=
  match m with
  | QUEUED => "Queued"
  | INPROGRESS => "In Progress"
  | COMPLETED => "Completed"
  | FAILED => "Failed"
  end.

#[global] Instance SnapshotStatus_enum : PyEnum SnapshotStatus := {|
  enum_members := [QUEUED; INPROGRESS; COMPLETED; FAILED];
  enum_name m := match m with
                 | QUEUED => "QUEUED"
                 | INPROGRESS => "INPROGRESS"
                 | COMPLETED => "COMPLETED"
                 | FAILED => "FAILED"
                 end
|}.

(** Modelled from the spec: [ProviderName], imported from [atlasapi.lib],
    which is not among the sources.  The spec lists the cloud provider
    identifiers AWS, AZURE, GCP and TENANT, the last being the fallback. *)
Inductive ProviderName := AWS | AZURE | GCP | TENANT.

#[global] Instance ProviderName_enum : PyEnum ProviderName := {|
  enum_members := [AWS; AZURE; GCP; TENANT];
  enum_name m := match m with
                 | AWS => "AWS"
                 | AZURE => "AZURE"
                 | GCP => "GCP"
                 | TENANT => "TENANT"
                 end
|}.

(** Modelled from the spec: [ClusterType], imported from [atlasapi.lib],
    which is not among the sources.  The spec lists two members, the
    replica set and the sharded cluster, under the labels REPLICA_SET and
    SHARDED_CLUSTER; it labels the members the source declares as
    [ONDEMAND] and [INPROGRESS] the same way (ON_DEMAND, IN_PROGRESS).
    The member names are the upper-cased API strings ("replicaSet",
    "shardedCluster" in the constructor's docstring) that [from_dict]
    looks up by name, as for the two enumerations of the source; the
    module parses [test_data], whose type is "replicaSet", when it is
    loaded. *)
Inductive ClusterType := REPLICASET | SHARDEDCLUSTER.

#[global] Instance ClusterType_enum : PyEnum ClusterType := {|
  enum_members := [REPLICASET; SHARDEDCLUSTER];
  enum_name m := match m with
                 | REPLICASET => "REPLICASET"
                 | SHARDEDCLUSTER => "SHARDEDCLUSTER"
                 end
|}.

(** ** Values *)

(** A [datetime.datetime]; [tzinfo] is the offset from UTC in seconds,
    absent for a naive timestamp. *)
Record datetime := {
  year : Z;
  month : Z;
  day : Z;
  hour : Z;
  minute : Z;
  second : Z;
  microsecond : Z;
  tzinfo : option Z
}.

(** The objects that reach this module: what a JSON document deserialises
    to ([None], booleans, numbers, text, lists, mappings with text keys),
    timestamps, and members of the four enumerations.  A float is held as
    its IEEE 754 binary64 bit pattern and is only ever passed along. *)
Inductive pyval :=
| PNone
| PBool (b : bool)
| PInt (z : Z)
| PFloat (bits : Z)
| PStr (s : string)
| PList (l : list pyval)
| PDict (m : gmap string pyval)
| PDatetime (d : datetime)
| PProviderName (m : ProviderName)
| PClusterType (m : ClusterType)
| PSnapshotType (m : SnapshotType)
| PSnapshotStatus (m : SnapshotStatus).

(** Lists and mappings cannot be hashed, everything else can. *)
Definition hashable (v : pyval) : bool :=
  match v with
  | PList _ | PDict _ => false
  | _ => true
  end.

(** [data_dict.get(key)]: the value under [key], [None] when there is
    none. *)
Definition get (data_dict : gmap string pyval) (key : string) : pyval :=
  default PNone (data_dict !! key).

(** [E[name]]: a lookup in the member map of [E].  Hashing an unhashable
    key raises [TypeError]; a key that is no member name raises
    [KeyError], and a key that is not text equals no member name. *)
Definition Enum_getitem (E : Type) `{PyEnum E} (name : pyval) : result E :=
  if hashable name then
    match name with
    | PStr s =>
        match member_named s with
        | Some m => Ok m
        | None => Raise KeyError
        end
    | _ => Raise KeyError
    end
  else Raise TypeError.

(** [v.upper()]: only text has the method. *)
Definition str_upper (unicode_upper : string → string) (v : pyval)
    : result pyval :=
  match v with
  | PStr s => Ok (PStr (upper unicode_upper s))
  | _ => Raise AttributeError
  end.

(** ** Computations: the log as state, exceptions as results *)

Inductive log_level := DEBUG | INFO | WARNING | ERROR | CRITICAL.

(** One entry handed to a logger.  The message of the source is an
    f-string: a fixed text followed by the rendering of one value; the
    entry keeps the two parts. *)
Record log_record := {
  log_name : string;
  log_levelname : log_level;
  log_text : string;
  log_arg : pyval
}.

Definition M (A : Type) : Type :=
  list log_record → result A * list log_record.

#[global] Instance M_ret : MRet M := λ A a log, (Ok a, log).

#[global] Instance M_bind : MBind M := λ A B f m log,
  match m log with
  | (Ok a, log') => f a log'
  | (Raise e, log') => (Raise e, log')
  end.

(** A pure step that may raise. *)
Definition eval {A} (r : result A) : M A := λ log, (r, log).

(** [try: body except classes: handler]. *)
Definition try_except {A} (body : M A) (classes : list exn) (handler : M A) : M A :=
  λ log,
    match body log with
    | (Raise e, log') =>
        if isinstance e classes then handler log' else (Raise e, log')
    | done => done
    end.

Definition logger : string := "Atlas_cloud_backup".

Definition logger_debug (name text : string) (arg : pyval) : M unit :=
  λ log,
    (Ok (), log ++ [{| log_name := name; log_levelname := DEBUG;
                       log_text := text; log_arg := arg |}]).

(** ** The date helper *)

Section try_date.
(** [dateutil.parser.parse], a third-party function, as of the moment of
    the call: it returns a timestamp or raises.  It fills the fields a
    text leaves out from the current date, so that calls at two moments
    are calls of two such functions. *)
Context (parse : pyval → result datetime).

Definition try_date (str_in : pyval) : M pyval :=
  datetime_out ←
    try_except
      (d ← eval (parse str_in); mret (PDatetime d))
      [ValueError; TypeError; AttributeError]
      (logger_debug logger "Could not parse a date from : " str_in;;
       mret PNone);
  mret datetime_out.
End try_date.

(** The payload the module keeps as [test_data]. *)
Definition test_data : gmap string pyval :=
  list_to_map [
    ("cloudProvider", PStr "AWS");
    ("createdAt", PStr "2021-07-31T02:02:25Z");
    ("expiresAt", PStr "2021-08-28T02:03:22Z");
    ("id", PStr "6104a8c6c1b4ef7788b5d8f0");
    ("links", PList [
       PDict (list_to_map [
         ("href", PStr "https://cloud.mongodb.com/api/atlas/v1.0/groups/5b1e92c13b34b93b0230e6e1/clusters/pyAtlasTestCluster/backup/snapshots/6104a8c6c1b4ef7788b5d8f0");
         ("rel", PStr "self")]);
       PDict (list_to_map [
         ("href", PStr "https://cloud.mongodb.com/api/atlas/v1.0/groups/5b1e92c13b34b93b0230e6e1/clusters/pyAtlasTestCluster");
         ("rel", PStr "http://cloud.mongodb.com/cluster")])]);
    ("mongodVersion", PStr "4.2.15");
    ("replicaSetName", PStr "pyAtlasTestCluster");
    ("snapshotType", PStr "scheduled");
    ("status", PStr "completed");
    ("storageSizeBytes", PInt 14380134400);
    ("type", PStr "replicaSet")
  ].

(** ** The snapshot class *)

Module CloudBackupSnapshot.

(** The attributes of an instance, in the order the constructor assigns
    them.  Annotations are not enforced, so every attribute holds any
    object. *)
Record t := {
  type : pyval;
  storage_size_bytes : pyval;
  status : pyval;
  snapshot_type : pyval;
  snapshot_ids : pyval;
  replica_set_name : pyval;
  mongod_version : pyval;
  members : pyval;
  masterkey_uuid : pyval;
  links : pyval;
  expires_at : pyval;
  description : pyval;
  created_at : pyval;
  cloud_provider : pyval;
  id : pyval
}.

(** The constructor.  Each parameter is a keyword with default [None]:
    an argument is either left out or supplied. *)
Definition __init__
    (id cloud_provider created_at description expires_at links
     masterkey_uuid members mongod_version replica_set_name snapshot_ids
     snapshot_type status storage_size_bytes type : option pyval) : t :=
  {| type := default PNone type;
     storage_size_bytes := default PNone storage_size_bytes;
     status := default PNone status;
     snapshot_type := default PNone snapshot_type;
     snapshot_ids := default PNone snapshot_ids;
     replica_set_name := default PNone replica_set_name;
     mongod_version := default PNone mongod_version;
     members := default PNone members;
     masterkey_uuid := default PNone masterkey_uuid;
     links := default PNone links;
     expires_at := default PNone expires_at;
     description := default PNone description;
     created_at := default PNone created_at;
     cloud_provider := default PNone cloud_provider;
     id := default PNone id |}.

Section from_dict.
Context (unicode_upper : string → string).
Context (parse : pyval → result datetime).

Definition from_dict (data_dict : gmap string pyval) : M t :=
  let id := get data_dict "id" in
  cloud_provider ←
    try_except
      (eval (Enum_getitem ProviderName (get data_dict "cloudProvider")))
      [KeyError]
      (mret TENANT);
  created_at ← try_date parse (get data_dict "createdAt");
  expires_at ← try_date parse (get data_dict "expiresAt");
  let description := get data_dict "description" in
  snapshot_type ←
    (name ← eval (str_upper unicode_upper (get data_dict "snapshotType"));
     eval (Enum_getitem SnapshotType name));
  cluster_type ←
    (name ← eval (str_upper unicode_upper (get data_dict "type"));
     eval (Enum_getitem ClusterType name));
  snapshot_status ←
    (name ← eval (str_upper unicode_upper (get data_dict "status"));
     eval (Enum_getitem SnapshotStatus name));
  let storage_size_bytes := get data_dict "storageSizeBytes" in
  let replica_set_name := get data_dict "replicaSetName" in
  let links := get data_dict "links" in
  let masterkey := get data_dict "masterKeyUUID" in
  let members := get data_dict "members" in
  let mongod_version := get data_dict "mongodVersion" in
  let snapshot_ids := get data_dict "snapshotIds" in
  mret (__init__
          (* id *) (Some id)
          (* cloud_provider *) (Some (PProviderName cloud_provider))
          (* created_at *) (Some created_at)
          (* description *) (Some description)
          (* expires_at *) (Some expires_at)
          (* links *) (Some links)
          (* masterkey_uuid *) (Some masterkey)
          (* members *) (Some members)
          (* mongod_version *) (Some mongod_version)
          (* replica_set_name *) (Some replica_set_name)
          (* snapshot_ids *) (Some snapshot_ids)
          (* snapshot_type *) (Some (PSnapshotType snapshot_type))
          (* status *) (Some (PSnapshotStatus snapshot_status))
          (* storage_size_bytes *) (Some storage_size_bytes)
          (* type *) (Some (PClusterType cluster_type))).
End from_dict.

End CloudBackupSnapshot.

(** ** A parser instance

    [parse] stays a parameter of the development.  To run [from_dict] on
    concrete mappings, [rfc3339_utc] reads the one fixed-width form the
    API sends, YYYY-MM-DDTHH:MM:SSZ.  It rejects any other text with
    [ParserError] and anything that is not text with [TypeError], the two
    ways in which dateutil reports a rejection. *)

Definition digit (c : ascii) : option Z :=
  let n := Z.of_N (N_of_ascii c) in
  if (48 <=? n) && (n <=? 57) then Some (n - 48) else None.

Fixpoint digits (acc : Z) (s : string) : option Z :=
  match s with
  | EmptyString => Some acc
  | String c s' => d ← digit c; digits (10 * acc + d) s'
  end.

Definition field (start len : nat) (s : string) : option Z :=
  digits 0 (substring start len s).

Definition punct (i : nat) (c : ascii) (s : string) : bool :=
  bool_decide (String.get i s = Some c).

Definition rfc3339_utc_text (s : string) : option datetime :=
  if bool_decide (String.length s = 20%nat)
     && punct 4 "-" s && punct 7 "-" s && punct 10 "T" s
     && punct 13 ":" s && punct 16 ":" s && punct 19 "Z" s
  then
    y ← field 0 4 s; mo ← field 5 2 s; d ← field 8 2 s;
    h ← field 11 2 s; mi ← field 14 2 s; se ← field 17 2 s;
    if (1 <=? y) && (1 <=? mo) && (mo <=? 12) && (1 <=? d) && (d <=? 31)
       && (h <=? 23) && (mi <=? 59) && (se <=? 59)
    then Some {| year := y; month := mo; day := d; hour := h; minute := mi;
                 second := se; microsecond := 0; tzinfo := Some 0 |}
    else None
  else None.

Definition rfc3339_utc (v : pyval) : result datetime :=
  match v with
  | PStr s =>
      match rfc3339_utc_text s with
      | Some d => Ok d
      | None => Raise ParserError
      end
  | _ => Raise TypeError
  end.

(** A second instance.  dateutil documents one more failure,
    [OverflowError], for a date beyond the largest C integer of the
    system.  [overflowing_parse] is [rfc3339_utc] with that failure: it
    meets text made of digits that spell a number beyond a 32-bit C
    integer with [OverflowError]. *)
Definition overflowing_parse (v : pyval) : result datetime :=
  match v with
  | PStr s =>
      match digits 0 s with
      | Some n => if 2147483647 <? n then Raise OverflowError else rfc3339_utc v
      | None => rfc3339_utc v
      end
  | _ => rfc3339_utc v
  end.

(** A third instance, as of a given day.  A text that gives a time of
    day only, HH:MM:SS, leaves the date out, and dateutil takes the date
    from the day of the call: [clock_parse today] is [rfc3339_utc] with
    that one further form, read as a naive timestamp on [today]. *)
Definition time_of_day_text (s : string) : option (Z * Z * Z) :=
  if bool_decide (String.length s = 8%nat) && punct 2 ":" s && punct 5 ":" s
  then
    h ← field 0 2 s; mi ← field 3 2 s; se ← field 6 2 s;
    if (h <=? 23) && (mi <=? 59) && (se <=? 59) then Some (h, mi, se) else None
  else None.

Definition clock_parse (today : Z * Z * Z) (v : pyval) : result datetime :=
  match v with
  | PStr s =>
      match time_of_day_text s with
      | Some (h, mi, se) =>
          let '(y, mo, d) := today in
          Ok {| year := y; month := mo; day := d; hour := h; minute := mi;
                second := se; microsecond := 0; tzinfo := None |}
      | None => rfc3339_utc v
      end
  | _ => rfc3339_utc v
  end.

(** ** An excerpt of the case mapping

    [unicode_upper] stays a parameter of the development.  To run
    [from_dict] on concrete mappings, [sample_unicode_upper] holds three
    lines of the Unicode table, for characters whose upper-case form is
    ASCII text: the long s, the dotless i and the sharp s.  It keeps every
    other character, so that beyond these three lines it is the table on
    the characters without case only. *)
Definition sample_unicode_upper (c : string) : string :=
  if String.eqb c "ſ" then "S"
  else if String.eqb c "ı" then "I"
  else if String.eqb c "ß" then "SS"
  else c.

(** ** Vocabulary of the properties *)

Import CloudBackupSnapshot.

(** The entry [try_date] writes when the parser rejects [str_in]. *)
Definition rejected_date_entry (str_in : pyval) : log_record :=
  {| log_name := "Atlas_cloud_backup"; log_levelname := DEBUG;
     log_text := "Could not parse a date from : "; log_arg := str_in |}.

(** [v] is text whose upper-cased form is the name of the member [m]. *)
Definition names_upper (unicode_upper : string → string)
    (E : Type) `{PyEnum E} (v : pyval) (m : E) : Prop :=
  ∃ s, v = PStr s ∧ member_named (upper unicode_upper s) = Some m.

(** [v] is, as it stands, the name of a member. *)
Definition names_exactly (E : Type) `{PyEnum E} (v : pyval) : Prop :=
  ∃ m : E, v = PStr (enum_name m).

(** The key is missing, holds [None], or holds a value that names no
    member once upper-cased. *)
Definition missing_null_or_unknown (unicode_upper : string → string)
    (E : Type) `{PyEnum E} (d : gmap string pyval) (key : string) : Prop :=
  d !! key = None ∨ d !! key = Some PNone ∨
  ∃ v, d !! key = Some v ∧ ¬ ∃ m : E, names_upper unicode_upper E v m.

(** The parser returns on [v], or fails with a class that [try_date]
    handles. *)
Definition date_accepted (parse : pyval → result datetime) (v : pyval) : Prop :=
  match parse v with
  | Ok _ => True
  | Raise e => isinstance e [ValueError; TypeError; AttributeError] = true
  end.

(** What [try_date] hands back for [v]. *)
Definition date_value (parse : pyval → result datetime) (v c : pyval) : Prop :=
  (∃ dt, parse v = Ok dt ∧ c = PDatetime dt) ∨
  (∃ e, parse v = Raise e ∧
        isinstance e [ValueError; TypeError; AttributeError] = true ∧
        c = PNone).

(** The attribute that 'createdAt', respectively 'expiresAt', feeds. *)
Definition date_field (key : string) (r : t) : pyval :=
  if String.eqb key "createdAt" then created_at r else expires_at r.

(** The value under [key] reaches the field untouched, [None] standing in
    for a missing key. *)
Definition passed_through (d : gmap string pyval) (key : string)
    (field_value : pyval) : Prop :=
  (∀ v, d !! key = Some v → field_value = v) ∧
  (d !! key = None → field_value = PNone).

(** A keyword argument and the attribute it initialises. *)
Definition stored (argument : option pyval) (field_value : pyval) : Prop :=
  match argument with
  | Some v => field_value = v
  | None => field_value = PNone
  end.

Definition fields_equal (a b : t) : Prop :=
  id a = id b ∧ cloud_provider a = cloud_provider b ∧
  created_at a = created_at b ∧ description a = description b ∧
  expires_at a = expires_at b ∧ links a = links b ∧
  masterkey_uuid a = masterkey_uuid b ∧ members a = members b ∧
  mongod_version a = mongod_version b ∧
  replica_set_name a = replica_set_name b ∧
  snapshot_ids a = snapshot_ids b ∧ snapshot_type a = snapshot_type b ∧
  status a = status b ∧ storage_size_bytes a = storage_size_bytes b ∧
  type a = type b.



(** [m] ends with result [r] after appending [entries] to the log,
    whatever the log held before. *)
Definition appends {A} (m : M A) (r : result A) (entries : list log_record) : Prop :=
  ∀ log, m log = (r, log ++ entries).

Definition log_oblivious {A} (m : M A) : Prop :=
  ∃ r entries, appends m r entries.

(** ** Sample mappings *)

(** The scenario of the specification: [test_data] without its links. *)
Definition scenario_data : gmap string pyval :=
  list_to_map [
    ("snapshotType", PStr "scheduled");
    ("type", PStr "replicaSet");
    ("status", PStr "completed");
    ("cloudProvider", PStr "AWS");
    ("createdAt", PStr "2021-07-31T02:02:25Z");
    ("expiresAt", PStr "2021-08-28T02:03:22Z");
    ("id", PStr "6104a8c6c1b4ef7788b5d8f0");
    ("storageSizeBytes", PInt 14380134400);
    ("replicaSetName", PStr "pyAtlasTestCluster");
    ("mongodVersion", PStr "4.2.15")
  ].

Definition scenario_created_at : datetime :=
  {| year := 2021; month := 7; day := 31; hour := 2; minute := 2;
     second := 25; microsecond := 0; tzinfo := Some 0 |}.

Definition scenario_expires_at : datetime :=
  {| year := 2021; month := 8; day := 28; hour := 2; minute := 3;
     second := 22; microsecond := 0; tzinfo := Some 0 |}.

(** [test_data] with a list where the provider name belongs. *)
Definition provider_list_data : gmap string pyval :=
  <["cloudProvider" := PList []]> test_data.

(** A sharded-cluster snapshot whose provider is a mapping. *)
Definition provider_mapping_data : gmap string pyval :=
  list_to_map [
    ("snapshotType", PStr "onDemand");
    ("type", PStr "shardedCluster");
    ("status", PStr "inProgress");
    ("cloudProvider", PDict ∅)
  ].

(** [test_data] with an unknown provider and an unreadable creation
    date. *)
Definition garbage_date_data : gmap string pyval :=
  <["createdAt" := PStr "garbage"]> (<["cloudProvider" := PStr "aws"]> test_data).

(** [test_data] with a creation date that is a number too large for a
    year. *)
Definition overflow_date_data : gmap string pyval :=
  <["createdAt" := PStr "5368151136"]> test_data.

(** [test_data] without its status. *)
Definition no_status_data : gmap string pyval := delete "status" test_data.


(** The record the scenario parses to. *)
Definition scenario_record : t :=
  {| type := PClusterType REPLICASET;
     storage_size_bytes := PInt 14380134400;
     status := PSnapshotStatus COMPLETED;
     snapshot_type := PSnapshotType SCHEDULED;
     snapshot_ids := PNone;
     replica_set_name := PStr "pyAtlasTestCluster";
     mongod_version := PStr "4.2.15";
     members := PNone;
     masterkey_uuid := PNone;
     links := PNone;
     expires_at := PDatetime scenario_expires_at;
     description := PNone;
     created_at := PDatetime scenario_created_at;
     cloud_provider := PProviderName AWS;
     id := PStr "6104a8c6c1b4ef7788b5d8f0" |}.

(** ** Vocabulary of the further properties *)

(** What [try_date] returns for [v] when it returns: the timestamp of
    the parser, [None] when the parser failed. *)
Definition date_result (parse : pyval → result datetime) (v : pyval) : pyval :=
  match parse v with
  | Ok dt => PDatetime dt
  | Raise _ => PNone
  end.

(** What [try_date] writes to the log for [v]: one entry when the parser
    fails with a class the handler names, nothing otherwise. *)
Definition date_entries (parse : pyval → result datetime) (v : pyval)
    : list log_record :=
  match parse v with
  | Ok _ => []
  | Raise e =>
      if isinstance e [ValueError; TypeError; AttributeError]
      then [rejected_date_entry v]
      else []
  end.

(** How the lookup [E[v.upper()]] fails, if it does: a value that is not
    text has no [upper], text that names no member is no key. *)
Definition lookup_failure (unicode_upper : string → string)
    (E : Type) `{PyEnum E} (v : pyval) : option exn :=
  match v with
  | PStr s =>
      match member_named (E:=E) (upper unicode_upper s) with
      | Some _ => None
      | None => Some KeyError
      end
  | _ => Some AttributeError
  end.

(** The first failure among the lookups of 'snapshotType', 'type' and
    'status', in the order [from_dict] makes them. *)
Definition first_lookup_failure (unicode_upper : string → string)
    (d : gmap string pyval) : option exn :=
  match lookup_failure unicode_upper SnapshotType (get d "snapshotType") with
  | Some e => Some e
  | None =>
      match lookup_failure unicode_upper ClusterType (get d "type") with
      | Some e => Some e
      | None => lookup_failure unicode_upper SnapshotStatus (get d "status")
      end
  end.

(** The keys whose values are upper-cased before the lookup. *)
Definition upper_cased_keys : list string := ["snapshotType"; "type"; "status"].

(** The scenario with an unreadable creation date, and its record. *)
Definition undated_scenario_data : gmap string pyval :=
  <["createdAt" := PStr "garbage"]> scenario_data.

Definition undated_scenario_record : t :=
  {| type := PClusterType REPLICASET;
     storage_size_bytes := PInt 14380134400;
     status := PSnapshotStatus COMPLETED;
     snapshot_type := PSnapshotType SCHEDULED;
     snapshot_ids := PNone;
     replica_set_name := PStr "pyAtlasTestCluster";
     mongod_version := PStr "4.2.15";
     members := PNone;
     masterkey_uuid := PNone;
     links := PNone;
     expires_at := PDatetime scenario_expires_at;
     description := PNone;
     created_at := PNone;
     cloud_provider := PProviderName AWS;
     id := PStr "6104a8c6c1b4ef7788b5d8f0" |}.

(** The scenario with a status Atlas does not send. *)
Definition unknown_status_data : gmap string pyval :=
  <["status" := PStr "done"]> scenario_data.

(** The scenario with a creation time that names no day, and two days
    on which it may be parsed. *)
Definition time_only_data : gmap string pyval :=
  <["createdAt" := PStr "02:02:25"]> scenario_data.

Definition last_of_july : Z * Z * Z := (2021, 7, 31).
Definition first_of_august : Z * Z * Z := (2021, 8, 1).

(** The scenario with a long s in the snapshot type. *)
Definition long_s_data : gmap string pyval :=
  <["snapshotType" := PStr "ſcheduled"]> scenario_data.

(** ** Running the computations *)

Section properties.
(** The case mapping of Unicode beyond ASCII: every property below holds
    whatever the table. *)
Context (unicode_upper : string → string).

Lemma bind_run {A B} (m : M A) (f : A → M B) log :
  (m ≫= f) log =
  match m log with
  | (Ok a, log') => f a log'
  | (Raise e, log') => (Raise e, log')
  end.
Proof. reflexivity. Qed.

Lemma try_date_run parse str_in log :
  try_date parse str_in log =
  match parse str_in with
  | Ok d => (Ok (PDatetime d), log)
  | Raise e =>
      if isinstance e [ValueError; TypeError; AttributeError]
      then (Ok PNone, log ++ [rejected_date_entry str_in])
      else (Raise e, log)
  end.
Proof.
  unfold try_date, try_except, eval, logger_debug, rejected_date_entry, logger.
  rewrite !bind_run.
  destruct (parse str_in) as [dt|e]; [reflexivity|].
  destruct (isinstance e _); reflexivity.
Qed.

Lemma provider_run (v : pyval) log :
  try_except (eval (Enum_getitem ProviderName v)) [KeyError] (mret TENANT) log =
  match Enum_getitem ProviderName v with
  | Ok p => (Ok p, log)
  | Raise e => if isinstance e [KeyError] then (Ok TENANT, log) else (Raise e, log)
  end.
Proof.
  unfold try_except, eval.
  destruct (Enum_getitem ProviderName v); reflexivity.
Qed.

Lemma lookup_run (E : Type) `{PyEnum E} (v : pyval) log :
  (name ← eval (str_upper unicode_upper v); eval (Enum_getitem E name)) log =
  (match str_upper unicode_upper v with
   | Ok name => Enum_getitem E name
   | Raise e => Raise e
   end, log).
Proof.
  rewrite bind_run. unfold eval.
  destruct (str_upper unicode_upper v); reflexivity.
Qed.

(** The three fatal lookups succeed exactly on text that names a member
    once upper-cased. *)
Lemma lookup_Ok (E : Type) `{PyEnum E} (v : pyval) (m : E) :
  match str_upper unicode_upper v with
  | Ok name => Enum_getitem E name
  | Raise e => Raise e
  end = Ok m ↔ names_upper unicode_upper E v m.
Proof.
  unfold names_upper, str_upper, Enum_getitem. split.
  - destruct v; try discriminate. simpl.
    destruct (member_named (upper unicode_upper s)) eqn:Hm; [|discriminate].
    intros [= ->]. eauto.
  - intros (s & -> & Hm). simpl. by rewrite Hm.
Qed.

Lemma member_named_name (E : Type) `{PyEnum E} (s : string) (m : E) :
  member_named s = Some m → s = enum_name m.
Proof.
  unfold member_named. intros Hf. apply find_some in Hf as [_ Heq].
  symmetry. by apply String.eqb_eq.
Qed.

(** The provider step hands [TENANT] back for every hashable value that
    is not a member name. *)
Lemma provider_fallback (v : pyval) :
  hashable v = true → ¬ names_exactly ProviderName v →
  Enum_getitem ProviderName v = Raise KeyError.
Proof.
  unfold Enum_getitem. intros -> Hn.
  destruct v; try reflexivity.
  destruct (member_named s) eqn:Hm; [|reflexivity].
  exfalso. apply Hn. exists p. f_equal. by apply member_named_name.
Qed.

Lemma provider_outcome (v : pyval) :
  match Enum_getitem ProviderName v with
  | Ok _ => hashable v = true
  | Raise e => if hashable v then e = KeyError else e = TypeError
  end.
Proof.
  unfold Enum_getitem. destruct (hashable v) eqn:Hh; [|reflexivity].
  destruct v; try reflexivity; try discriminate.
  by destruct (member_named s).
Qed.

(** *** Success of [from_dict], step by step *)

Lemma bind_Ok_inv {A B} (m : M A) (f : A → M B) log b log' :
  (m ≫= f) log = (Ok b, log') →
  ∃ a log1, m log = (Ok a, log1) ∧ f a log1 = (Ok b, log').
Proof.
  rewrite bind_run. destruct (m log) as [[a|e] log1]; [eauto|discriminate].
Qed.

Lemma bind_Ok_intro {A B} (m : M A) (f : A → M B) log a log1 :
  m log = (Ok a, log1) → (m ≫= f) log = f a log1.
Proof. intros Hm. by rewrite bind_run, Hm. Qed.

Lemma provider_keeps_log (v : pyval) log r log' :
  try_except (eval (Enum_getitem ProviderName v)) [KeyError] (mret TENANT) log
    = (r, log') → log' = log.
Proof.
  rewrite provider_run.
  destruct (Enum_getitem ProviderName v) as [p|e]; [congruence|].
  destruct (isinstance e [KeyError]); unfold mret, M_ret; congruence.
Qed.

Lemma from_dict_Ok_inv parse d log r log' :
  from_dict unicode_upper parse d log = (Ok r, log') →
  ∃ p c x st ct ss log1,
    try_except (eval (Enum_getitem ProviderName (get d "cloudProvider")))
      [KeyError] (mret TENANT) log = (Ok p, log) ∧
    try_date parse (get d "createdAt") log = (Ok c, log1) ∧
    try_date parse (get d "expiresAt") log1 = (Ok x, log') ∧
    names_upper unicode_upper SnapshotType (get d "snapshotType") st ∧
    names_upper unicode_upper ClusterType (get d "type") ct ∧
    names_upper unicode_upper SnapshotStatus (get d "status") ss ∧
    r = __init__ (Some (get d "id")) (Some (PProviderName p)) (Some c)
          (Some (get d "description")) (Some x) (Some (get d "links"))
          (Some (get d "masterKeyUUID")) (Some (get d "members"))
          (Some (get d "mongodVersion")) (Some (get d "replicaSetName"))
          (Some (get d "snapshotIds")) (Some (PSnapshotType st))
          (Some (PSnapshotStatus ss)) (Some (get d "storageSizeBytes"))
          (Some (PClusterType ct)).
Proof.
  unfold from_dict. intros H.
  apply bind_Ok_inv in H as (p & l0 & Hp & H).
  pose proof (provider_keeps_log _ _ _ _ Hp) as ->.
  apply bind_Ok_inv in H as (c & l1 & Hc & H).
  apply bind_Ok_inv in H as (x & l2 & Hx & H).
  apply bind_Ok_inv in H as (st & l3 & Hst & H).
  apply bind_Ok_inv in H as (ct & l4 & Hct & H).
  apply bind_Ok_inv in H as (ss & l5 & Hss & H).
  rewrite lookup_run in Hst, Hct, Hss.
  injection Hst as Hst <-. injection Hct as Hct <-. injection Hss as Hss <-.
  apply lookup_Ok in Hst, Hct, Hss.
  injection H as <- <-.
  by exists p, c, x, st, ct, ss, l1.
Qed.

Lemma from_dict_Ok_intro parse d log p c x st ct ss log1 log2 :
  try_except (eval (Enum_getitem ProviderName (get d "cloudProvider")))
    [KeyError] (mret TENANT) log = (Ok p, log) →
  try_date parse (get d "createdAt") log = (Ok c, log1) →
  try_date parse (get d "expiresAt") log1 = (Ok x, log2) →
  names_upper unicode_upper SnapshotType (get d "snapshotType") st →
  names_upper unicode_upper ClusterType (get d "type") ct →
  names_upper unicode_upper SnapshotStatus (get d "status") ss →
  from_dict unicode_upper parse d log =
    (Ok (__init__ (Some (get d "id")) (Some (PProviderName p)) (Some c)
           (Some (get d "description")) (Some x) (Some (get d "links"))
           (Some (get d "masterKeyUUID")) (Some (get d "members"))
           (Some (get d "mongodVersion")) (Some (get d "replicaSetName"))
           (Some (get d "snapshotIds")) (Some (PSnapshotType st))
           (Some (PSnapshotStatus ss)) (Some (get d "storageSizeBytes"))
           (Some (PClusterType ct))), log2).
Proof.
  intros Hp Hc Hx Hst Hct Hss. unfold from_dict.
  apply lookup_Ok in Hst, Hct, Hss.
  rewrite (bind_Ok_intro _ _ _ _ _ Hp), (bind_Ok_intro _ _ _ _ _ Hc),
    (bind_Ok_intro _ _ _ _ _ Hx).
  rewrite bind_run, lookup_run, Hst.
  rewrite bind_run, lookup_run, Hct.
  rewrite bind_run, lookup_run, Hss.
  reflexivity.
Qed.

(** A call never leaves without a result or an exception; what it
    raises comes from one of its steps. *)
Lemma try_date_Ok_inv parse v log c log' :
  try_date parse v log = (Ok c, log') →
  date_value parse v c ∧
  (log' = log ∨ log' = log ++ [rejected_date_entry v]).
Proof.
  rewrite try_date_run. unfold date_value.
  destruct (parse v) as [dt|e] eqn:Hv.
  - intros [= <- <-]. split; [left; eauto | by left].
  - destruct (isinstance e _) eqn:He; [|discriminate].
    intros [= <- <-]. split; [right; eauto | by right].
Qed.

(** *** The log is written, never read *)

Lemma appends_ret {A} (a : A) : appends (mret a) (Ok a) [].
Proof. intros log. unfold mret, M_ret. by rewrite app_nil_r. Qed.

Lemma appends_eval {A} (r : result A) : appends (eval r) r [].
Proof. intros log. unfold eval. by rewrite app_nil_r. Qed.

Lemma oblivious_ret {A} (a : A) : log_oblivious (mret a : M A).
Proof. eexists _, _. apply appends_ret. Qed.

Lemma oblivious_eval {A} (r : result A) : log_oblivious (eval r).
Proof. eexists _, _. apply appends_eval. Qed.

Lemma oblivious_debug name text arg : log_oblivious (logger_debug name text arg).
Proof. eexists _, _. intros log. reflexivity. Qed.

Lemma oblivious_bind {A B} (m : M A) (f : A → M B) :
  log_oblivious m → (∀ a, log_oblivious (f a)) → log_oblivious (m ≫= f).
Proof.
  intros (r & es & Hm) Hf. destruct r as [a|e].
  - destruct (Hf a) as (r' & es' & Hfa). exists r', (es ++ es').
    intros log. by rewrite bind_run, Hm, Hfa, app_assoc.
  - exists (Raise e), es. intros log. by rewrite bind_run, Hm.
Qed.

Lemma oblivious_try_except {A} (body : M A) classes (handler : M A) :
  log_oblivious body → log_oblivious handler →
  log_oblivious (try_except body classes handler).
Proof.
  intros (r & es & Hb) (r' & es' & Hh). unfold try_except.
  destruct r as [a|e].
  - exists (Ok a), es. intros log. by rewrite Hb.
  - destruct (isinstance e classes) eqn:He.
    + exists r', (es ++ es'). intros log. by rewrite Hb, He, Hh, app_assoc.
    + exists (Raise e), es. intros log. by rewrite Hb, He.
Qed.

Create HintDb oblivious.
#[local] Hint Resolve oblivious_ret oblivious_eval oblivious_debug
  oblivious_try_except : oblivious.
#[local] Hint Extern 2 (log_oblivious (_ ≫= _)) =>
  apply oblivious_bind; [|intros ?] : oblivious.

Lemma try_date_oblivious parse v : log_oblivious (try_date parse v).
Proof. unfold try_date. auto 10 with oblivious. Qed.

#[local] Hint Resolve try_date_oblivious : oblivious.

Lemma from_dict_oblivious parse d : log_oblivious (from_dict unicode_upper parse d).
Proof. unfold from_dict. auto 20 with oblivious. Qed.


(** *** Letter case *)

Lemma char_upper_lower c : char_upper (char_lower c) = char_upper c.
Proof. destruct c as [[] [] [] [] [] [] [] []]; reflexivity. Qed.

Lemma is_ascii_byte_lower c : is_ascii_byte (char_lower c) = is_ascii_byte c.
Proof. destruct c as [[] [] [] [] [] [] [] []]; reflexivity. Qed.

Lemma char_lower_beyond_ascii c : is_ascii_byte c = false → char_lower c = c.
Proof. destruct c as [[] [] [] [] [] [] [] []]; (reflexivity || discriminate). Qed.

(** Texts that agree up to the case of their ASCII letters hold the same
    characters beyond ASCII, and have the same upper-case form. *)
Lemma upper_from_same_case c s t :
  lower s = lower t → upper_from unicode_upper c s = upper_from unicode_upper c t.
Proof.
  revert c t. induction s as [|b s IH]; intros c [|b' t]; simpl;
    try discriminate; [done|].
  intros [= Hb Hst].
  assert (is_ascii_byte b = is_ascii_byte b') as Ha.
  { by rewrite <-(is_ascii_byte_lower b), Hb, is_ascii_byte_lower. }
  rewrite <-Ha. destruct (is_ascii_byte b) eqn:Hab.
  - assert (char_upper b = char_upper b') as ->.
    { by rewrite <-(char_upper_lower b), Hb, char_upper_lower. }
    by rewrite (IH _ _ Hst).
  - assert (b = b') as <-.
    { rewrite <-(char_lower_beyond_ascii b Hab), Hb.
      apply char_lower_beyond_ascii. by rewrite <-Ha. }
    destruct (is_continuation_byte b); by rewrite (IH _ _ Hst).
Qed.

Lemma same_up_to_case_upper s t :
  same_up_to_case s t → upper unicode_upper s = upper unicode_upper t.
Proof. apply upper_from_same_case. Qed.

Lemma SnapshotType_named s m :
  same_up_to_case s (enum_name m) → names_upper unicode_upper SnapshotType (PStr s) m.
Proof.
  intros H%same_up_to_case_upper. exists s. split; [done|].
  rewrite H. by destruct m.
Qed.

Lemma ClusterType_named s m :
  same_up_to_case s (enum_name m) → names_upper unicode_upper ClusterType (PStr s) m.
Proof.
  intros H%same_up_to_case_upper. exists s. split; [done|].
  rewrite H. by destruct m.
Qed.

Lemma SnapshotStatus_named s m :
  same_up_to_case s (enum_name m) → names_upper unicode_upper SnapshotStatus (PStr s) m.
Proof.
  intros H%same_up_to_case_upper. exists s. split; [done|].
  rewrite H. by destruct m.
Qed.

(** *** Reading the mapping *)

Lemma get_Some (d : gmap string pyval) key v : d !! key = Some v → get d key = v.
Proof. unfold get. by intros ->. Qed.

Lemma get_None (d : gmap string pyval) key : d !! key = None → get d key = PNone.
Proof. unfold get. by intros ->. Qed.

Lemma unknown_names_nothing (E : Type) `{PyEnum E} (d : gmap string pyval) key m :
  missing_null_or_unknown unicode_upper E d key → ¬ names_upper unicode_upper E (get d key) m.
Proof.
  intros [Hd|[Hd|(v & Hd & Hv)]] Hn.
  - rewrite (get_None _ _ Hd) in Hn. by destruct Hn as (s & ? & _).
  - rewrite (get_Some _ _ _ Hd) in Hn. by destruct Hn as (s & ? & _).
  - rewrite (get_Some _ _ _ Hd) in Hn. eauto.
Qed.



(** What [try_date] does not handle leaves it as it came. *)
Lemma try_date_propagates parse (v : pyval) e log :
  parse v = Raise e →
  isinstance e [ValueError; TypeError; AttributeError] = false →
  try_date parse v log = (Raise e, log).
Proof. intros Hv He. by rewrite try_date_run, Hv, He. Qed.

(** [try_date] depends on the parser through its result on the value it
    is given, and on nothing else. *)
Lemma try_date_same_result parse1 parse2 (v c : pyval) log1 log1' log2 :
  parse1 v = parse2 v →
  try_date parse1 v log1 = (Ok c, log1') →
  ∃ log2', try_date parse2 v log2 = (Ok c, log2').
Proof.
  intros Hv. rewrite !try_date_run, <-Hv.
  destruct (parse1 v) as [dt|e]; [intros [= <- _]; eauto|].
  destruct (isinstance e _); [intros [= <- _]; eauto|discriminate].
Qed.

(** *** Steps that cannot fail *)

Lemma provider_hashable (v : pyval) log :
  hashable v = true →
  ∃ p, try_except (eval (Enum_getitem ProviderName v)) [KeyError]
         (mret TENANT) log = (Ok p, log).
Proof.
  intros Hh. rewrite provider_run.
  pose proof (provider_outcome v) as Ho. rewrite Hh in Ho.
  destruct (Enum_getitem ProviderName v) as [p|e]; [eauto|].
  subst e. by exists TENANT.
Qed.

Lemma try_date_accepted parse (v : pyval) log :
  date_accepted parse v → ∃ c log', try_date parse v log = (Ok c, log').
Proof.
  unfold date_accepted. rewrite try_date_run.
  destruct (parse v) as [dt|e]; [eauto|]. intros ->. eauto.
Qed.

(** ** The properties *)

(** C1.  When 'snapshotType', 'type' or 'status' is missing from the
    mapping, holds [None], or holds a value that names no member of its
    enumeration once upper-cased, [from_dict] raises: the caller gets an
    exception and no record, not even a partial one. *)
Theorem from_dict_fatal_lookups parse (d : gmap string pyval) log :
  missing_null_or_unknown unicode_upper SnapshotType d "snapshotType" ∨
  missing_null_or_unknown unicode_upper ClusterType d "type" ∨
  missing_null_or_unknown unicode_upper SnapshotStatus d "status" →
  ∃ e log', from_dict unicode_upper parse d log = (Raise e, log').
Proof.
  intros Hbad.
  destruct (from_dict unicode_upper parse d log) as [[r|e] log'] eqn:Hrun; [|eauto].
  exfalso.
  apply from_dict_Ok_inv in Hrun
    as (p & c & x & st & ct & ss & l1 & _ & _ & _ & Hst & Hct & Hss & _).
  destruct Hbad as [H|[H|H]];
    eapply unknown_names_nothing in H; eauto.
Qed.


(** C2, as stated, fails: a list under 'cloudProvider' is no member name,
    yet the lookup raises [TypeError], which the handler for [KeyError]
    lets through, and [from_dict] raises. *)
Lemma cloud_provider_list_raises :
  provider_list_data !! "cloudProvider" = Some (PList []) ∧
  ¬ names_exactly ProviderName (PList []) ∧
  from_dict sample_unicode_upper rfc3339_utc provider_list_data [] = (Raise TypeError, []).
Proof.
  split; [by vm_compute|]. split; [|by vm_compute].
  intros [m Hm]. discriminate Hm.
Qed.

(** C2, amended.  When 'cloudProvider' is absent, or present with a
    hashable value (anything but a list or a mapping) that is not, compared
    exactly, the name of a [ProviderName] member, the provider step of
    [from_dict] succeeds with [TENANT], and every record [from_dict]
    returns has [TENANT] as its cloud_provider. *)
Theorem cloud_provider_falls_back_to_tenant parse (d : gmap string pyval) log :
  (d !! "cloudProvider" = None ∨
   ∃ v, d !! "cloudProvider" = Some v ∧ hashable v = true ∧
        ¬ names_exactly ProviderName v) →
  try_except (eval (Enum_getitem ProviderName (get d "cloudProvider")))
    [KeyError] (mret TENANT) log = (Ok TENANT, log) ∧
  ∀ r log', from_dict unicode_upper parse d log = (Ok r, log') →
            cloud_provider r = PProviderName TENANT.
Proof.
  intros Hd.
  assert (Enum_getitem ProviderName (get d "cloudProvider") = Raise KeyError)
    as Hkey.
  { destruct Hd as [Hd|(v & Hd & Hh & Hn)].
    - by rewrite (get_None _ _ Hd).
    - rewrite (get_Some _ _ _ Hd). by apply provider_fallback. }
  assert (try_except (eval (Enum_getitem ProviderName (get d "cloudProvider")))
            [KeyError] (mret TENANT) log = (Ok TENANT, log)) as Hstep.
  { by rewrite provider_run, Hkey. }
  split; [done|]. intros r log' Hrun.
  apply from_dict_Ok_inv in Hrun
    as (p & c & x & st & ct & ss & l1 & Hp & _ & _ & _ & _ & _ & ->).
  rewrite Hstep in Hp. by injection Hp as <-.
Qed.


(** C3, as stated, fails: not every failure of the date parser ends in
    [None].  A parser that fails with [OverflowError] on a creation date
    is not stopped by the handler of [try_date], and [from_dict] raises. *)
Lemma date_overflow_is_raised :
  overflow_date_data !! "createdAt" = Some (PStr "5368151136") ∧
  overflowing_parse (PStr "5368151136") = Raise OverflowError ∧
  try_date overflowing_parse (get overflow_date_data "createdAt") [] =
    (Raise OverflowError, []) ∧
  from_dict sample_unicode_upper overflowing_parse overflow_date_data [] = (Raise OverflowError, []).
Proof. repeat split; by vm_compute. Qed.

(** C3, amended.  Whether 'createdAt' or 'expiresAt' holds malformed
    text, a value of the wrong type, or nothing at all, a failure of the
    date parser with one of the classes [try_date] handles ([ValueError],
    [TypeError], [AttributeError], and their subclasses) raises nothing:
    [try_date] returns [None], having written exactly one entry, at debug
    level, to the log; and every record [from_dict] returns holds [None]
    in the corresponding field, the entry being in the log. *)
Theorem date_failure_yields_none parse (d : gmap string pyval) key e log :
  key = "createdAt" ∨ key = "expiresAt" →
  parse (get d key) = Raise e →
  isinstance e [ValueError; TypeError; AttributeError] = true →
  try_date parse (get d key) log =
    (Ok PNone, log ++ [rejected_date_entry (get d key)]) ∧
  log_levelname (rejected_date_entry (get d key)) = DEBUG ∧
  (d !! key = None → get d key = PNone) ∧
  ∀ lg r lg', from_dict unicode_upper parse d lg = (Ok r, lg') →
    date_field key r = PNone ∧ rejected_date_entry (get d key) ∈ lg'.
Proof.
  intros Hkey Hfail Hcaught.
  assert (∀ l, try_date parse (get d key) l =
               (Ok PNone, l ++ [rejected_date_entry (get d key)])) as Hstep.
  { intros l. by rewrite try_date_run, Hfail, Hcaught. }
  split; [done|]. split; [done|]. split; [apply get_None|].
  intros lg r lg' Hrun.
  apply from_dict_Ok_inv in Hrun
    as (p & c & x & st & ct & ss & l1 & _ & Hc & Hx & _ & _ & _ & ->).
  destruct Hkey as [-> | ->].
  - rewrite Hstep in Hc. injection Hc as <- <-.
    split; [done|].
    apply try_date_Ok_inv in Hx as [_ [-> | ->]]; set_solver.
  - rewrite Hstep in Hx. injection Hx as <- <-.
    split; [done|]. set_solver.
Qed.


(** C4, as stated, fails: the three names are well formed up to letter
    case, yet the mapping under 'cloudProvider' cannot be hashed and
    [from_dict] raises [TypeError]. *)
Lemma wellformed_names_provider_mapping_raises :
  provider_mapping_data !! "snapshotType" = Some (PStr "onDemand") ∧
  same_up_to_case "onDemand" (enum_name ONDEMAND) ∧
  provider_mapping_data !! "type" = Some (PStr "shardedCluster") ∧
  same_up_to_case "shardedCluster" (enum_name SHARDEDCLUSTER) ∧
  provider_mapping_data !! "status" = Some (PStr "inProgress") ∧
  same_up_to_case "inProgress" (enum_name INPROGRESS) ∧
  from_dict sample_unicode_upper rfc3339_utc provider_mapping_data [] = (Raise TypeError, []).
Proof. repeat split; by vm_compute. Qed.

(** C4, amended.  When the values under 'snapshotType', 'type' and
    'status' are, up to letter case, names of members of the respective
    enumerations, the value under 'cloudProvider' (if any) is hashable,
    and the date parser returns or fails with a handled class on the
    values under 'createdAt' and 'expiresAt', [from_dict] succeeds and
    the record's snapshot_type, type and status are the members named. *)
Theorem from_dict_wellformed_names parse (d : gmap string pyval) log
    s1 s2 s3 (st : SnapshotType) (ct : ClusterType) (ss : SnapshotStatus) :
  d !! "snapshotType" = Some (PStr s1) → same_up_to_case s1 (enum_name st) →
  d !! "type" = Some (PStr s2) → same_up_to_case s2 (enum_name ct) →
  d !! "status" = Some (PStr s3) → same_up_to_case s3 (enum_name ss) →
  hashable (get d "cloudProvider") = true →
  date_accepted parse (get d "createdAt") →
  date_accepted parse (get d "expiresAt") →
  ∃ r log', from_dict unicode_upper parse d log = (Ok r, log') ∧
            snapshot_type r = PSnapshotType st ∧
            type r = PClusterType ct ∧
            status r = PSnapshotStatus ss.
Proof.
  intros H1 Hst%SnapshotType_named H2 Hct%ClusterType_named
         H3 Hss%SnapshotStatus_named Hh Hc Hx.
  rewrite <-(get_Some _ _ _ H1) in Hst.
  rewrite <-(get_Some _ _ _ H2) in Hct.
  rewrite <-(get_Some _ _ _ H3) in Hss.
  destruct (provider_hashable _ log Hh) as [p Hp].
  destruct (try_date_accepted _ _ log Hc) as (c & l1 & Hc').
  destruct (try_date_accepted _ _ l1 Hx) as (x & l2 & Hx').
  eexists _, l2. split.
  - by apply (from_dict_Ok_intro parse d log p c x st ct ss l1 l2).
  - done.
Qed.


(** C5.  The scenario mapping parses to a record with snapshot_type
    SCHEDULED, type the replica set, status COMPLETED, cloud_provider AWS,
    created_at the timestamp 2021-07-31T02:02:25Z and storage_size_bytes
    14380134400, for every date parser that reads the 'createdAt' text as
    that timestamp and accepts the 'expiresAt' text. *)
Theorem from_dict_scenario parse log :
  parse (PStr "2021-07-31T02:02:25Z") = Ok scenario_created_at →
  date_accepted parse (PStr "2021-08-28T02:03:22Z") →
  ∃ r log', from_dict unicode_upper parse scenario_data log = (Ok r, log') ∧
            snapshot_type r = PSnapshotType SCHEDULED ∧
            type r = PClusterType REPLICASET ∧
            status r = PSnapshotStatus COMPLETED ∧
            cloud_provider r = PProviderName AWS ∧
            created_at r = PDatetime scenario_created_at ∧
            storage_size_bytes r = PInt 14380134400.
Proof.
  intros Hc Hx.
  change (PStr "2021-08-28T02:03:22Z") with (get scenario_data "expiresAt") in Hx.
  destruct (try_date_accepted _ _ log Hx) as (x & l2 & Hx').
  eexists _, l2. split.
  - apply (from_dict_Ok_intro parse scenario_data log AWS
             (PDatetime scenario_created_at) x SCHEDULED REPLICASET COMPLETED
             log l2); try done.
    + rewrite try_date_run.
      change (get scenario_data "createdAt") with (PStr "2021-07-31T02:02:25Z").
      by rewrite Hc.
    + by exists "scheduled".
    + by exists "replicaSet".
    + by exists "completed".
  - repeat split; reflexivity.
Qed.


(** C6.  In every record [from_dict] returns, the fields id, description,
    storage_size_bytes, replica_set_name, links, masterkey_uuid, members,
    mongod_version and snapshot_ids hold, unchanged, the values under
    'id', 'description', 'storageSizeBytes', 'replicaSetName', 'links',
    'masterKeyUUID', 'members', 'mongodVersion' and 'snapshotIds', and
    [None] where the key is missing. *)
Theorem from_dict_passes_through parse (d : gmap string pyval) log r log' :
  from_dict unicode_upper parse d log = (Ok r, log') →
  passed_through d "id" (id r) ∧
  passed_through d "description" (description r) ∧
  passed_through d "storageSizeBytes" (storage_size_bytes r) ∧
  passed_through d "replicaSetName" (replica_set_name r) ∧
  passed_through d "links" (links r) ∧
  passed_through d "masterKeyUUID" (masterkey_uuid r) ∧
  passed_through d "members" (members r) ∧
  passed_through d "mongodVersion" (mongod_version r) ∧
  passed_through d "snapshotIds" (snapshot_ids r).
Proof.
  intros Hrun.
  apply from_dict_Ok_inv in Hrun
    as (p & c & x & st & ct & ss & l1 & _ & _ & _ & _ & _ & _ & ->).
  repeat split; simpl; first [by apply get_Some | by apply get_None].
Qed.


(** C7.  The constructor stores each of its fifteen arguments verbatim:
    every attribute of the new record is the argument supplied for it,
    and [None] when the argument is left out.  Nothing is validated or
    converted. *)
Theorem init_stores_arguments
    (a_id a_cloud_provider a_created_at a_description a_expires_at a_links
     a_masterkey_uuid a_members a_mongod_version a_replica_set_name
     a_snapshot_ids a_snapshot_type a_status a_storage_size_bytes
     a_type : option pyval) :
  let r := __init__ a_id a_cloud_provider a_created_at a_description
             a_expires_at a_links a_masterkey_uuid a_members a_mongod_version
             a_replica_set_name a_snapshot_ids a_snapshot_type a_status
             a_storage_size_bytes a_type in
  stored a_id (id r) ∧
  stored a_cloud_provider (cloud_provider r) ∧
  stored a_created_at (created_at r) ∧
  stored a_description (description r) ∧
  stored a_expires_at (expires_at r) ∧
  stored a_links (links r) ∧
  stored a_masterkey_uuid (masterkey_uuid r) ∧
  stored a_members (members r) ∧
  stored a_mongod_version (mongod_version r) ∧
  stored a_replica_set_name (replica_set_name r) ∧
  stored a_snapshot_ids (snapshot_ids r) ∧
  stored a_snapshot_type (snapshot_type r) ∧
  stored a_status (status r) ∧
  stored a_storage_size_bytes (storage_size_bytes r) ∧
  stored a_type (type r).
Proof.
  intros r. subst r.
  repeat split;
    match goal with |- stored ?a _ => destruct a; reflexivity end.
Qed.

(** C8, as stated, fails: the date parser fills what a text leaves out
    from the current date, so a creation time that names no day is read
    as another timestamp on another day, and two calls on the same
    mapping return records that differ in created_at. *)
Lemma same_mapping_two_days_two_records :
  ∃ r1 r2,
    from_dict sample_unicode_upper (clock_parse last_of_july)
      time_only_data [] = (Ok r1, []) ∧
    from_dict sample_unicode_upper (clock_parse first_of_august)
      time_only_data [] = (Ok r2, []) ∧
    created_at r1 ≠ created_at r2.
Proof.
  eexists _, _. split; [vm_compute; reflexivity|].
  split; [vm_compute; reflexivity|]. simpl. discriminate.
Qed.

(** C8, amended.  When [from_dict] succeeds on a mapping, a further call
    on the same mapping, for which the date parser gives the same results
    on the values under 'createdAt' and 'expiresAt' as it gave for the
    first (as it does on the same day), succeeds too, whatever has been
    logged in between, and the fifteen fields of the two records are
    pairwise equal. *)
Theorem from_dict_same_dates_same_record parse1 parse2
    (d : gmap string pyval) log1 r1 log1' log2 :
  parse1 (get d "createdAt") = parse2 (get d "createdAt") →
  parse1 (get d "expiresAt") = parse2 (get d "expiresAt") →
  from_dict unicode_upper parse1 d log1 = (Ok r1, log1') →
  ∃ r2 log2', from_dict unicode_upper parse2 d log2 = (Ok r2, log2') ∧
              fields_equal r1 r2.
Proof.
  intros Hc Hx Hrun.
  apply from_dict_Ok_inv in Hrun
    as (p & c & x & st & ct & ss & l1 & Hp & Hc1 & Hx1 & Hst & Hct & Hss & ->).
  assert (try_except
            (eval (Enum_getitem ProviderName (get d "cloudProvider")))
            [KeyError] (mret TENANT) log2 = (Ok p, log2)) as Hp2.
  { rewrite provider_run in *.
    destruct (Enum_getitem ProviderName _) as [p'|e]; [congruence|].
    destruct (isinstance e [KeyError]); unfold mret, M_ret in *; congruence. }
  destruct (try_date_same_result _ _ _ _ _ _ log2 Hc Hc1) as [l2 Hc2].
  destruct (try_date_same_result _ _ _ _ _ _ l2 Hx Hx1) as [l3 Hx2].
  eexists _, l3. split.
  - by apply (from_dict_Ok_intro parse2 d log2 p c x st ct ss l2 l3).
  - by repeat split.
Qed.

(** C9.  Every record [from_dict] returns holds a [ProviderName] member
    in cloud_provider, a [SnapshotType] member in snapshot_type, a
    [SnapshotStatus] member in status and a [ClusterType] member in type:
    none of the four is [None]. *)
Theorem from_dict_enum_fields_not_null parse (d : gmap string pyval) log r log' :
  from_dict unicode_upper parse d log = (Ok r, log') →
  (∃ m, cloud_provider r = PProviderName m) ∧
  (∃ m, snapshot_type r = PSnapshotType m) ∧
  (∃ m, status r = PSnapshotStatus m) ∧
  (∃ m, type r = PClusterType m) ∧
  cloud_provider r ≠ PNone ∧ snapshot_type r ≠ PNone ∧
  status r ≠ PNone ∧ type r ≠ PNone.
Proof.
  intros Hrun.
  apply from_dict_Ok_inv in Hrun
    as (p & c & x & st & ct & ss & l1 & _ & _ & _ & _ & _ & _ & ->).
  simpl. repeat split; eauto; discriminate.
Qed.




(** ** Further properties: the steps of [from_dict], one by one *)

Lemma bind_Raise {A B} (m : M A) (f : A → M B) log e log' :
  m log = (Raise e, log') → (m ≫= f) log = (Raise e, log').
Proof. intros Hm. by rewrite bind_run, Hm. Qed.

Lemma provider_unhashable (v : pyval) log :
  hashable v = false →
  try_except (eval (Enum_getitem ProviderName v)) [KeyError] (mret TENANT) log
    = (Raise TypeError, log).
Proof.
  intros Hh. rewrite provider_run. unfold Enum_getitem. by rewrite Hh.
Qed.

Lemma try_date_accepted_run parse (v : pyval) log :
  date_accepted parse v →
  try_date parse v log =
    (Ok (date_result parse v), log ++ date_entries parse v).
Proof.
  unfold date_accepted, date_result, date_entries. rewrite try_date_run.
  destruct (parse v) as [dt|e]; [by rewrite app_nil_r|]. by intros ->.
Qed.

Lemma date_accepted_dec parse (v : pyval) :
  date_accepted parse v ∨
  ∃ e, parse v = Raise e ∧
       isinstance e [ValueError; TypeError; AttributeError] = false.
Proof.
  unfold date_accepted. destruct (parse v) as [dt|e]; [by left|].
  destruct (isinstance e _) eqn:He; [by left|right; eauto].
Qed.

Lemma date_entries_cases parse (v : pyval) :
  date_entries parse v = [] ∨ date_entries parse v = [rejected_date_entry v].
Proof.
  unfold date_entries. destruct (parse v) as [dt|e]; [by left|].
  destruct (isinstance e _); [by right | by left].
Qed.

Lemma lookup_failure_Some (E : Type) `{PyEnum E} (v : pyval) e :
  lookup_failure unicode_upper E v = Some e ↔
  match str_upper unicode_upper v with
  | Ok name => Enum_getitem E name
  | Raise e => Raise e
  end = Raise e.
Proof.
  unfold lookup_failure, str_upper, Enum_getitem.
  destruct v; simpl; try (split; congruence).
  destruct (member_named (upper unicode_upper s)); split; congruence.
Qed.

Lemma lookup_failure_None (E : Type) `{PyEnum E} (v : pyval) :
  lookup_failure unicode_upper E v = None ↔ ∃ m, names_upper unicode_upper E v m.
Proof.
  unfold lookup_failure, names_upper. split.
  - destruct v; try discriminate.
    destruct (member_named (upper unicode_upper s)) as [m|] eqn:Hm; [|discriminate]. eauto.
  - intros (m & s & -> & Hm). by rewrite Hm.
Qed.

(** *** The five ways a call can end *)

Lemma from_dict_provider_raise parse d log :
  hashable (get d "cloudProvider") = false →
  from_dict unicode_upper parse d log = (Raise TypeError, log).
Proof.
  intros Hh. unfold from_dict.
  by apply bind_Raise, provider_unhashable.
Qed.

Lemma from_dict_created_raise parse d log e :
  hashable (get d "cloudProvider") = true →
  parse (get d "createdAt") = Raise e →
  isinstance e [ValueError; TypeError; AttributeError] = false →
  from_dict unicode_upper parse d log = (Raise e, log).
Proof.
  intros Hh Hc He. unfold from_dict.
  destruct (provider_hashable _ log Hh) as [p Hp].
  rewrite (bind_Ok_intro _ _ _ _ _ Hp).
  by apply bind_Raise, try_date_propagates.
Qed.

Lemma from_dict_expires_raise parse d log e :
  hashable (get d "cloudProvider") = true →
  date_accepted parse (get d "createdAt") →
  parse (get d "expiresAt") = Raise e →
  isinstance e [ValueError; TypeError; AttributeError] = false →
  from_dict unicode_upper parse d log =
    (Raise e, log ++ date_entries parse (get d "createdAt")).
Proof.
  intros Hh Hc Hx He. unfold from_dict.
  destruct (provider_hashable _ log Hh) as [p Hp].
  rewrite (bind_Ok_intro _ _ _ _ _ Hp).
  rewrite (bind_Ok_intro _ _ _ _ _ (try_date_accepted_run _ _ _ Hc)).
  by apply bind_Raise, try_date_propagates.
Qed.

Lemma from_dict_lookup_raise parse d log e :
  hashable (get d "cloudProvider") = true →
  date_accepted parse (get d "createdAt") →
  date_accepted parse (get d "expiresAt") →
  first_lookup_failure unicode_upper d = Some e →
  from_dict unicode_upper parse d log =
    (Raise e, log ++ date_entries parse (get d "createdAt")
                  ++ date_entries parse (get d "expiresAt")).
Proof.
  intros Hh Hc Hx Hf. unfold from_dict.
  destruct (provider_hashable _ log Hh) as [p Hp].
  rewrite (bind_Ok_intro _ _ _ _ _ Hp).
  rewrite (bind_Ok_intro _ _ _ _ _ (try_date_accepted_run _ _ _ Hc)).
  rewrite (bind_Ok_intro _ _ _ _ _ (try_date_accepted_run _ _ _ Hx)).
  rewrite <-app_assoc.
  unfold first_lookup_failure in Hf.
  rewrite bind_run, lookup_run.
  destruct (lookup_failure unicode_upper SnapshotType _) as [e1|] eqn:H1.
  { injection Hf as ->. apply lookup_failure_Some in H1. by rewrite H1. }
  apply lookup_failure_None in H1 as [st H1]. apply lookup_Ok in H1.
  rewrite H1, bind_run, lookup_run.
  destruct (lookup_failure unicode_upper ClusterType _) as [e2|] eqn:H2.
  { injection Hf as ->. apply lookup_failure_Some in H2. by rewrite H2. }
  apply lookup_failure_None in H2 as [ct H2]. apply lookup_Ok in H2.
  rewrite H2, bind_run, lookup_run.
  apply lookup_failure_Some in Hf. by rewrite Hf.
Qed.

Lemma from_dict_returns parse d log :
  hashable (get d "cloudProvider") = true →
  date_accepted parse (get d "createdAt") →
  date_accepted parse (get d "expiresAt") →
  first_lookup_failure unicode_upper d = None →
  ∃ r, from_dict unicode_upper parse d log =
         (Ok r, log ++ date_entries parse (get d "createdAt")
                    ++ date_entries parse (get d "expiresAt")) ∧
       created_at r = date_result parse (get d "createdAt") ∧
       expires_at r = date_result parse (get d "expiresAt").
Proof.
  intros Hh Hc Hx Hf. unfold first_lookup_failure in Hf.
  destruct (lookup_failure unicode_upper SnapshotType _) eqn:H1; [discriminate|].
  destruct (lookup_failure unicode_upper ClusterType _) eqn:H2; [discriminate|].
  apply lookup_failure_None in H1 as [st H1].
  apply lookup_failure_None in H2 as [ct H2].
  apply lookup_failure_None in Hf as [ss H3].
  destruct (provider_hashable _ log Hh) as [p Hp].
  eexists. split.
  - rewrite app_assoc.
    apply (from_dict_Ok_intro parse d log p _ _ st ct ss _ _ Hp
             (try_date_accepted_run _ _ _ Hc)
             (try_date_accepted_run _ _ _ Hx) H1 H2 H3).
  - done.
Qed.

(** Every call ends in one of the five ways. *)
Lemma from_dict_cases parse d log :
  (hashable (get d "cloudProvider") = false ∧
   from_dict unicode_upper parse d log = (Raise TypeError, log)) ∨
  (∃ e, parse (get d "createdAt") = Raise e ∧
        isinstance e [ValueError; TypeError; AttributeError] = false ∧
        from_dict unicode_upper parse d log = (Raise e, log)) ∨
  (∃ e, parse (get d "expiresAt") = Raise e ∧
        isinstance e [ValueError; TypeError; AttributeError] = false ∧
        from_dict unicode_upper parse d log =
          (Raise e, log ++ date_entries parse (get d "createdAt"))) ∨
  (∃ e, first_lookup_failure unicode_upper d = Some e ∧
        from_dict unicode_upper parse d log =
          (Raise e, log ++ date_entries parse (get d "createdAt")
                        ++ date_entries parse (get d "expiresAt"))) ∨
  (hashable (get d "cloudProvider") = true ∧
   date_accepted parse (get d "createdAt") ∧
   date_accepted parse (get d "expiresAt") ∧
   first_lookup_failure unicode_upper d = None ∧
   ∃ r, from_dict unicode_upper parse d log =
          (Ok r, log ++ date_entries parse (get d "createdAt")
                     ++ date_entries parse (get d "expiresAt")) ∧
        created_at r = date_result parse (get d "createdAt") ∧
        expires_at r = date_result parse (get d "expiresAt")).
Proof.
  destruct (hashable (get d "cloudProvider")) eqn:Hh.
  2: { left. split; [done|]. by apply from_dict_provider_raise. }
  right.
  destruct (date_accepted_dec parse (get d "createdAt")) as [Hc|(e & Hc & He)].
  2: { left. exists e. eauto using from_dict_created_raise. }
  right.
  destruct (date_accepted_dec parse (get d "expiresAt")) as [Hx|(e & Hx & He)].
  2: { left. exists e. eauto using from_dict_expires_raise. }
  right.
  destruct (first_lookup_failure unicode_upper d) as [e|] eqn:Hf.
  - left. exists e. eauto using from_dict_lookup_raise.
  - right. eauto 10 using from_dict_returns.
Qed.

Lemma lookup_failure_class (E : Type) `{PyEnum E} (v : pyval) e :
  lookup_failure unicode_upper E v = Some e → e = AttributeError ∨ e = KeyError.
Proof.
  unfold lookup_failure.
  destruct v; try (intros [= <-]; by left).
  destruct (member_named (upper unicode_upper s)); [discriminate|].
  intros [= <-]. by right.
Qed.

Lemma first_lookup_failure_class d e :
  first_lookup_failure unicode_upper d = Some e → e = AttributeError ∨ e = KeyError.
Proof.
  unfold first_lookup_failure.
  destruct (lookup_failure unicode_upper SnapshotType _) eqn:H1;
    [intros [= <-]; exact (lookup_failure_class _ _ _ H1)|].
  destruct (lookup_failure unicode_upper ClusterType _) eqn:H2;
    [intros [= <-]; exact (lookup_failure_class _ _ _ H2)|].
  apply lookup_failure_class.
Qed.

Lemma names_no_failure d st ct ss :
  names_upper unicode_upper SnapshotType (get d "snapshotType") st →
  names_upper unicode_upper ClusterType (get d "type") ct →
  names_upper unicode_upper SnapshotStatus (get d "status") ss →
  first_lookup_failure unicode_upper d = None.
Proof.
  intros H1 H2 H3. unfold first_lookup_failure.
  rewrite (proj2 (lookup_failure_None SnapshotType _)) by eauto.
  rewrite (proj2 (lookup_failure_None ClusterType _)) by eauto.
  apply lookup_failure_None. eauto.
Qed.

Lemma get_insert_eq (d : gmap string pyval) key v : get (<[key := v]> d) key = v.
Proof. unfold get. by rewrite lookup_insert_eq. Qed.

Lemma get_insert_ne (d : gmap string pyval) key key' v :
  key ≠ key' → get (<[key := v]> d) key' = get d key'.
Proof. intros Hne. unfold get. by rewrite lookup_insert_ne. Qed.

Lemma get_insert_None (d : gmap string pyval) key key' :
  d !! key = None → get (<[key := PNone]> d) key' = get d key'.
Proof.
  intros Hd. destruct (decide (key = key')) as [<-|Hne].
  - by rewrite get_insert_eq, (get_None _ _ Hd).
  - by apply get_insert_ne.
Qed.

Lemma ProviderName_by_name (m : ProviderName) :
  Enum_getitem ProviderName (PStr (enum_name m)) = Ok m.
Proof. by destruct m. Qed.

(** ** Further properties *)

(** X1.  When [try_date] returns, it returns the timestamp of the parser,
    leaving the log alone, or [None], and then the parser has failed and
    the log has gained the one entry that says so. *)
Theorem try_date_returns_timestamp_or_none parse (v c : pyval) log log' :
  try_date parse v log = (Ok c, log') →
  (∃ dt, parse v = Ok dt ∧ c = PDatetime dt ∧ log' = log) ∨
  (∃ e, parse v = Raise e ∧ c = PNone ∧
        log' = log ++ [rejected_date_entry v]).
Proof.
  rewrite try_date_run. destruct (parse v) as [dt|e].
  - intros [= <- <-]. left. eauto.
  - destruct (isinstance e _); [|discriminate].
    intros [= <- <-]. right. eauto.
Qed.


(** X2.  [try_date] never raises a [ValueError], a [TypeError] or an
    [AttributeError]: what it raises is the exception of the parser, of
    another class, and it has logged nothing. *)
Theorem try_date_raises_only_unhandled parse (v : pyval) log e log' :
  try_date parse v log = (Raise e, log') →
  parse v = Raise e ∧
  isinstance e [ValueError; TypeError; AttributeError] = false ∧
  log' = log.
Proof.
  rewrite try_date_run. destruct (parse v) as [dt|e0]; [discriminate|].
  destruct (isinstance e0 _) eqn:He; [discriminate|].
  by intros [= <- <-].
Qed.


(** X3.  [from_dict] returns a record exactly when the value under
    'cloudProvider' is hashable, the parser returns or fails with a
    handled class on the values under 'createdAt' and 'expiresAt', and
    the values under 'snapshotType', 'type' and 'status' are text that
    names a member once upper-cased. *)
Theorem from_dict_succeeds_iff parse (d : gmap string pyval) log :
  (∃ r log', from_dict unicode_upper parse d log = (Ok r, log')) ↔
  hashable (get d "cloudProvider") = true ∧
  date_accepted parse (get d "createdAt") ∧
  date_accepted parse (get d "expiresAt") ∧
  (∃ m, names_upper unicode_upper SnapshotType (get d "snapshotType") m) ∧
  (∃ m, names_upper unicode_upper ClusterType (get d "type") m) ∧
  (∃ m, names_upper unicode_upper SnapshotStatus (get d "status") m).
Proof.
  split.
  - intros (r & log' & Hrun).
    pose proof Hrun as Hinv.
    apply from_dict_Ok_inv in Hinv
      as (p & c & x & st & ct & ss & l1 & _ & _ & _ & Hst & Hct & Hss & _).
    destruct (from_dict_cases parse d log)
      as [[_ H]|[(e & _ & _ & H)|[(e & _ & _ & H)|[(e & _ & H)|H]]]];
      try congruence.
    destruct H as (Hh & Hc & Hx & _). eauto 10.
  - intros (Hh & Hc & Hx & [st Hst] & [ct Hct] & [ss Hss]).
    destruct (from_dict_returns parse d log Hh Hc Hx
                (names_no_failure d st ct ss Hst Hct Hss)) as (r & Hr & _).
    eauto.
Qed.

(** X4.  In a record [from_dict] returns, created_at and expires_at are
    the timestamps of the parser, [None] where it failed; the log has
    gained one entry for each failed date, 'createdAt' first, and nothing
    else. *)
Theorem from_dict_dates_on_success parse (d : gmap string pyval) log r log' :
  from_dict unicode_upper parse d log = (Ok r, log') →
  created_at r = date_result parse (get d "createdAt") ∧
  expires_at r = date_result parse (get d "expiresAt") ∧
  log' = log ++ date_entries parse (get d "createdAt")
             ++ date_entries parse (get d "expiresAt").
Proof.
  intros Hrun.
  destruct (from_dict_cases parse d log)
    as [[_ H]|[(e & _ & _ & H)|[(e & _ & _ & H)|[(e & _ & H)|H]]]];
    try congruence.
  destruct H as (_ & _ & _ & _ & r' & Hr & Hc & Hx).
  rewrite Hrun in Hr. by injection Hr as <- <-.
Qed.


(** X5.  Whatever the log holds, a call of [from_dict] leaves it in
    place and ends the same way, appending the same entries: at most two,
    each at debug level on the logger of the module, taken in order from
    the entries for a failed 'createdAt' and a failed 'expiresAt'. *)
Theorem from_dict_log_frame parse (d : gmap string pyval) :
  ∃ r entries,
    (∀ log, from_dict unicode_upper parse d log = (r, log ++ entries)) ∧
    entries `prefix_of` (date_entries parse (get d "createdAt")
                         ++ date_entries parse (get d "expiresAt")) ∧
    (List.length entries ≤ 2)%nat ∧
    Forall (λ entry, log_levelname entry = DEBUG ∧
                     log_name entry = "Atlas_cloud_backup") entries.
Proof.
  destruct (from_dict_oblivious parse d) as (r & es & Hframe).
  exists r, es. split; [done|].
  set (ec := date_entries parse (get d "createdAt")).
  set (ex := date_entries parse (get d "expiresAt")).
  assert (es = [] ∨ es = ec ∨ es = ec ++ ex) as Hes.
  { pose proof (Hframe []) as H0.
    destruct (from_dict_cases parse d [])
      as [[_ H]|[(e & _ & _ & H)|[(e & _ & _ & H)|[(e & _ & H)|H]]]];
      [| | | |destruct H as (_ & _ & _ & _ & r' & H & _)];
      rewrite H in H0; injection H0 as _ Hl; simpl in Hl; subst es; auto. }
  assert (es `prefix_of` ec ++ ex) as Hpre.
  { destruct Hes as [->|[->| ->]];
      [apply prefix_nil | by apply prefix_app_r | done]. }
  split; [done|].
  assert (∀ v, (List.length (date_entries parse v) ≤ 1)%nat ∧
               Forall (λ entry, log_levelname entry = DEBUG ∧
                                log_name entry = "Atlas_cloud_backup")
                 (date_entries parse v)) as Hone.
  { intros v. destruct (date_entries_cases parse v) as [-> | ->].
    - split; [simpl; lia | constructor].
    - split; [simpl; lia | by repeat constructor]. }
  destruct (Hone (get d "createdAt")) as [Hlc Hfc].
  destruct (Hone (get d "expiresAt")) as [Hlx Hfx].
  fold ec in Hlc, Hfc. fold ex in Hlx, Hfx.
  assert (Forall (λ entry, log_levelname entry = DEBUG ∧
                           log_name entry = "Atlas_cloud_backup") (ec ++ ex))
    as Hall by (by apply Forall_app).
  split.
  - apply prefix_length in Hpre. rewrite length_app in Hpre. lia.
  - destruct Hpre as [k Hk]. rewrite Hk in Hall.
    by apply Forall_app in Hall as [? _].
Qed.

(** X6.  What [from_dict] raises is a [TypeError] for an unhashable value
    under 'cloudProvider', the log being untouched; or the exception of
    the parser on 'createdAt' or 'expiresAt', of a class [try_date] does
    not handle; or the [AttributeError] or [KeyError] of the first failing
    lookup among 'snapshotType', 'type' and 'status'.  Nothing else. *)
Theorem from_dict_raises_classified parse (d : gmap string pyval) log e log' :
  from_dict unicode_upper parse d log = (Raise e, log') →
  (e = TypeError ∧ hashable (get d "cloudProvider") = false ∧ log' = log) ∨
  (isinstance e [ValueError; TypeError; AttributeError] = false ∧
   (parse (get d "createdAt") = Raise e ∨
    parse (get d "expiresAt") = Raise e)) ∨
  (first_lookup_failure unicode_upper d = Some e ∧ (e = AttributeError ∨ e = KeyError)).
Proof.
  intros Hrun.
  destruct (from_dict_cases parse d log)
    as [[Hh H]|[(e' & Hc & He & H)|[(e' & Hx & He & H)|[(e' & Hf & H)|H]]]].
  - left. rewrite Hrun in H. by injection H as -> ->.
  - right; left. rewrite Hrun in H. injection H as -> _. eauto.
  - right; left. rewrite Hrun in H. injection H as -> _. eauto.
  - right; right. rewrite Hrun in H. injection H as -> _.
    eauto using first_lookup_failure_class.
  - destruct H as (_ & _ & _ & _ & r & H & _). congruence.
Qed.


(** X7.  An unhashable value under 'cloudProvider', a list or a mapping,
    makes [from_dict] raise [TypeError] at its first step, whatever the
    rest of the mapping holds: no date is parsed and nothing is logged. *)
Theorem from_dict_unhashable_provider parse (d : gmap string pyval) log :
  hashable (get d "cloudProvider") = false →
  from_dict unicode_upper parse d log = (Raise TypeError, log).
Proof. apply from_dict_provider_raise. Qed.


(** X8.  With a hashable provider and dates the parser accepts, the
    first of 'snapshotType', 'type', 'status' whose value is not usable
    decides the exception: [AttributeError] for a missing key, [None] or
    any value that is not text, [KeyError] for text that names no member.
    The entries of the failed dates are in the log all the same. *)
Theorem from_dict_first_failing_lookup parse (d : gmap string pyval) log e :
  hashable (get d "cloudProvider") = true →
  date_accepted parse (get d "createdAt") →
  date_accepted parse (get d "expiresAt") →
  first_lookup_failure unicode_upper d = Some e →
  from_dict unicode_upper parse d log =
    (Raise e, log ++ date_entries parse (get d "createdAt")
                  ++ date_entries parse (get d "expiresAt")) ∧
  (e = AttributeError ∨ e = KeyError).
Proof.
  intros Hh Hc Hx Hf. split.
  - by apply from_dict_lookup_raise.
  - by apply first_lookup_failure_class in Hf.
Qed.


(** X9.  A key that holds [None] and a key that is missing are the same
    to [from_dict]: putting [None] under a key the mapping lacks changes
    neither the outcome nor the log. *)
Theorem from_dict_none_is_missing parse (d : gmap string pyval) key log :
  d !! key = None →
  from_dict unicode_upper parse (<[key := PNone]> d) log = from_dict unicode_upper parse d log.
Proof.
  intros Hd. unfold from_dict.
  by rewrite !(get_insert_None d key _ Hd).
Qed.


(** X10.  The letter case of the text under 'snapshotType', 'type' and
    'status' does not matter: two texts that agree up to case, put under
    one of these keys, give the same outcome and the same log. *)
Theorem from_dict_ignores_letter_case parse (d : gmap string pyval)
    key s s' log :
  key ∈ upper_cased_keys →
  same_up_to_case s s' →
  from_dict unicode_upper parse (<[key := PStr s]> d) log =
  from_dict unicode_upper parse (<[key := PStr s']> d) log.
Proof.
  intros Hkey Hs%same_up_to_case_upper. unfold upper_cased_keys in Hkey.
  repeat (apply elem_of_cons in Hkey as [-> | Hkey]);
    [| | |by apply elem_of_nil in Hkey];
    unfold from_dict;
    rewrite !get_insert_eq, !get_insert_ne by done;
    simpl str_upper; by rewrite Hs.
Qed.


(** X11.  When the text under 'cloudProvider' is, letter for letter, the
    name of a [ProviderName] member, every record [from_dict] returns has
    that member as its cloud_provider. *)
Theorem from_dict_provider_by_name parse (d : gmap string pyval)
    (m : ProviderName) log r log' :
  d !! "cloudProvider" = Some (PStr (enum_name m)) →
  from_dict unicode_upper parse d log = (Ok r, log') →
  cloud_provider r = PProviderName m.
Proof.
  intros Hd Hrun.
  apply from_dict_Ok_inv in Hrun
    as (p & c & x & st & ct & ss & l1 & Hp & _ & _ & _ & _ & _ & ->).
  rewrite provider_run, (get_Some _ _ _ Hd), ProviderName_by_name in Hp.
  by injection Hp as <-.
Qed.


(** X12.  In [SnapshotType] and in [SnapshotStatus] a lookup by name
    finds a member exactly under its own name, letter for letter, and no
    two members share a value, so that no name is an alias. *)
Theorem source_enums_lookup_by_name :
  (∀ s m, Enum_getitem SnapshotType (PStr s) = Ok m ↔ s = enum_name m) ∧
  (∀ s m, Enum_getitem SnapshotStatus (PStr s) = Ok m ↔ s = enum_name m) ∧
  (∀ m m', SnapshotType_value m = SnapshotType_value m' → m = m') ∧
  (∀ m m', SnapshotStatus_value m = SnapshotStatus_value m' → m = m').
Proof.
  assert (∀ (E : Type) `{PyEnum E},
            (∀ m : E, member_named (enum_name m) = Some m) →
            ∀ s m, Enum_getitem E (PStr s) = Ok m ↔ s = enum_name m) as Hgen.
  { intros E ? Hall s m. unfold Enum_getitem. simpl. split.
    - destruct (member_named s) as [m'|] eqn:Hm; [|discriminate].
      intros [= ->]. by apply member_named_name.
    - intros ->. by rewrite Hall. }
  split; [apply Hgen; by intros []|].
  split; [apply Hgen; by intros []|].
  split; intros [] []; simpl; congruence.
Qed.

(** X13.  A failure of the parser that [try_date] does not handle, on
    the value under 'createdAt', or under 'expiresAt' once 'createdAt'
    went through, reaches the caller of [from_dict] as it is, provided the
    provider value is hashable; the three lookups are not even tried. *)
Theorem from_dict_parser_failure_propagates parse (d : gmap string pyval)
    key e log :
  hashable (get d "cloudProvider") = true →
  key = "createdAt" ∨
  (key = "expiresAt" ∧ date_accepted parse (get d "createdAt")) →
  parse (get d key) = Raise e →
  isinstance e [ValueError; TypeError; AttributeError] = false →
  ∃ log', from_dict unicode_upper parse d log = (Raise e, log').
Proof.
  intros Hh [-> | [-> Hc]] Hfail He.
  - eexists. by apply from_dict_created_raise.
  - eexists. by apply from_dict_expires_raise.
Qed.

End properties.

(** ** The properties at work

    Each property above that rests on a condition is applied here to one
    of the sample mappings, with [rfc3339_utc], [overflowing_parse] or
    [clock_parse] for the date parser and [sample_unicode_upper] for the
    case mapping. *)

Lemma from_dict_fatal_lookups_witness :
  ∃ e log', from_dict sample_unicode_upper rfc3339_utc no_status_data [] = (Raise e, log').
Proof.
  apply from_dict_fatal_lookups. right; right; left.
  vm_compute. reflexivity.
Defined.

Lemma cloud_provider_falls_back_to_tenant_witness :
  try_except
    (eval (Enum_getitem ProviderName (get garbage_date_data "cloudProvider")))
    [KeyError] (mret TENANT) [] = (Ok TENANT, []) ∧
  ∀ r log', from_dict sample_unicode_upper rfc3339_utc garbage_date_data [] = (Ok r, log') →
            cloud_provider r = PProviderName TENANT.
Proof.
  apply cloud_provider_falls_back_to_tenant.
  right. exists (PStr "aws"). split; [by vm_compute|]. split; [reflexivity|].
  intros [m Hm]. destruct m; discriminate Hm.
Defined.

Lemma date_failure_yields_none_witness :
  try_date rfc3339_utc (get garbage_date_data "createdAt") [] =
    (Ok PNone, [] ++ [rejected_date_entry (get garbage_date_data "createdAt")]) ∧
  log_levelname (rejected_date_entry (get garbage_date_data "createdAt")) = DEBUG ∧
  (garbage_date_data !! "createdAt" = None →
   get garbage_date_data "createdAt" = PNone) ∧
  ∀ lg r lg', from_dict sample_unicode_upper rfc3339_utc garbage_date_data lg = (Ok r, lg') →
    date_field "createdAt" r = PNone ∧
    rejected_date_entry (get garbage_date_data "createdAt") ∈ lg'.
Proof.
  apply (date_failure_yields_none sample_unicode_upper rfc3339_utc garbage_date_data "createdAt"
           ParserError []).
  - left. reflexivity.
  - vm_compute. reflexivity.
  - vm_compute. reflexivity.
Defined.

Lemma from_dict_wellformed_names_witness :
  ∃ r log', from_dict sample_unicode_upper rfc3339_utc garbage_date_data [] = (Ok r, log') ∧
            snapshot_type r = PSnapshotType SCHEDULED ∧
            type r = PClusterType REPLICASET ∧
            status r = PSnapshotStatus COMPLETED.
Proof.
  apply (from_dict_wellformed_names sample_unicode_upper rfc3339_utc garbage_date_data []
           "scheduled" "replicaSet" "completed");
    vm_compute; reflexivity.
Defined.

Lemma from_dict_scenario_witness :
  ∃ r log', from_dict sample_unicode_upper rfc3339_utc scenario_data [] = (Ok r, log') ∧
            snapshot_type r = PSnapshotType SCHEDULED ∧
            type r = PClusterType REPLICASET ∧
            status r = PSnapshotStatus COMPLETED ∧
            cloud_provider r = PProviderName AWS ∧
            created_at r = PDatetime scenario_created_at ∧
            storage_size_bytes r = PInt 14380134400.
Proof.
  apply (from_dict_scenario sample_unicode_upper rfc3339_utc []); vm_compute; done.
Defined.

Lemma from_dict_passes_through_witness :
  passed_through scenario_data "id" (id scenario_record) ∧
  passed_through scenario_data "description" (description scenario_record) ∧
  passed_through scenario_data "storageSizeBytes" (storage_size_bytes scenario_record) ∧
  passed_through scenario_data "replicaSetName" (replica_set_name scenario_record) ∧
  passed_through scenario_data "links" (links scenario_record) ∧
  passed_through scenario_data "masterKeyUUID" (masterkey_uuid scenario_record) ∧
  passed_through scenario_data "members" (members scenario_record) ∧
  passed_through scenario_data "mongodVersion" (mongod_version scenario_record) ∧
  passed_through scenario_data "snapshotIds" (snapshot_ids scenario_record).
Proof.
  apply (from_dict_passes_through sample_unicode_upper rfc3339_utc scenario_data [] scenario_record []).
  vm_compute. reflexivity.
Defined.

Lemma from_dict_enum_fields_not_null_witness :
  (∃ m, cloud_provider scenario_record = PProviderName m) ∧
  (∃ m, snapshot_type scenario_record = PSnapshotType m) ∧
  (∃ m, status scenario_record = PSnapshotStatus m) ∧
  (∃ m, type scenario_record = PClusterType m) ∧
  cloud_provider scenario_record ≠ PNone ∧
  snapshot_type scenario_record ≠ PNone ∧
  status scenario_record ≠ PNone ∧ type scenario_record ≠ PNone.
Proof.
  apply (from_dict_enum_fields_not_null sample_unicode_upper rfc3339_utc scenario_data []
           scenario_record []).
  vm_compute. reflexivity.
Defined.


Lemma try_date_returns_timestamp_or_none_witness :
  (∃ dt, rfc3339_utc (PStr "garbage") = Ok dt ∧ PNone = PDatetime dt ∧
         [rejected_date_entry (PStr "garbage")] = []) ∨
  (∃ e, rfc3339_utc (PStr "garbage") = Raise e ∧ PNone = PNone ∧
        [rejected_date_entry (PStr "garbage")] =
          [] ++ [rejected_date_entry (PStr "garbage")]).
Proof.
  apply (try_date_returns_timestamp_or_none rfc3339_utc (PStr "garbage")
           PNone [] [rejected_date_entry (PStr "garbage")]).
  vm_compute. reflexivity.
Defined.

Lemma try_date_raises_only_unhandled_witness :
  overflowing_parse (PStr "5368151136") = Raise OverflowError ∧
  isinstance OverflowError [ValueError; TypeError; AttributeError] = false ∧
  [] = ([] : list log_record).
Proof.
  apply (try_date_raises_only_unhandled overflowing_parse
           (PStr "5368151136") [] OverflowError []).
  vm_compute. reflexivity.
Defined.

Lemma from_dict_dates_on_success_witness :
  created_at undated_scenario_record =
    date_result rfc3339_utc (get undated_scenario_data "createdAt") ∧
  expires_at undated_scenario_record =
    date_result rfc3339_utc (get undated_scenario_data "expiresAt") ∧
  [rejected_date_entry (PStr "garbage")] =
    [] ++ date_entries rfc3339_utc (get undated_scenario_data "createdAt")
       ++ date_entries rfc3339_utc (get undated_scenario_data "expiresAt").
Proof.
  apply (from_dict_dates_on_success sample_unicode_upper rfc3339_utc undated_scenario_data []
           undated_scenario_record [rejected_date_entry (PStr "garbage")]).
  vm_compute. reflexivity.
Defined.

Lemma from_dict_raises_classified_witness :
  (AttributeError = TypeError ∧
   hashable (get no_status_data "cloudProvider") = false ∧
   [] = ([] : list log_record)) ∨
  (isinstance AttributeError [ValueError; TypeError; AttributeError] = false ∧
   (rfc3339_utc (get no_status_data "createdAt") = Raise AttributeError ∨
    rfc3339_utc (get no_status_data "expiresAt") = Raise AttributeError)) ∨
  (first_lookup_failure sample_unicode_upper no_status_data = Some AttributeError ∧
   (AttributeError = AttributeError ∨ AttributeError = KeyError)).
Proof.
  apply (from_dict_raises_classified sample_unicode_upper rfc3339_utc no_status_data []
           AttributeError []).
  vm_compute. reflexivity.
Defined.

Lemma from_dict_unhashable_provider_witness :
  from_dict sample_unicode_upper rfc3339_utc provider_list_data [] = (Raise TypeError, []).
Proof.
  apply from_dict_unhashable_provider. vm_compute. reflexivity.
Defined.

Lemma from_dict_first_failing_lookup_witness :
  from_dict sample_unicode_upper rfc3339_utc unknown_status_data [] =
    (Raise KeyError,
     [] ++ date_entries rfc3339_utc (get unknown_status_data "createdAt")
        ++ date_entries rfc3339_utc (get unknown_status_data "expiresAt")) ∧
  (KeyError = AttributeError ∨ KeyError = KeyError).
Proof.
  apply (from_dict_first_failing_lookup sample_unicode_upper rfc3339_utc unknown_status_data []
           KeyError); vm_compute; done.
Defined.

Lemma from_dict_none_is_missing_witness :
  from_dict sample_unicode_upper rfc3339_utc (<["description" := PNone]> scenario_data) [] =
  from_dict sample_unicode_upper rfc3339_utc scenario_data [].
Proof.
  apply from_dict_none_is_missing. vm_compute. reflexivity.
Defined.

Lemma from_dict_ignores_letter_case_witness :
  from_dict sample_unicode_upper rfc3339_utc (<["status" := PStr "completed"]> scenario_data) [] =
  from_dict sample_unicode_upper rfc3339_utc (<["status" := PStr "COMPLETED"]> scenario_data) [].
Proof.
  apply from_dict_ignores_letter_case.
  - unfold upper_cased_keys. do 2 apply list_elem_of_further.
    apply list_elem_of_here.
  - vm_compute. reflexivity.
Defined.

Lemma from_dict_provider_by_name_witness :
  cloud_provider scenario_record = PProviderName AWS.
Proof.
  apply (from_dict_provider_by_name sample_unicode_upper rfc3339_utc scenario_data AWS []
           scenario_record []); vm_compute; reflexivity.
Defined.

Lemma from_dict_parser_failure_propagates_witness :
  ∃ log', from_dict sample_unicode_upper overflowing_parse overflow_date_data [] =
            (Raise OverflowError, log').
Proof.
  apply (from_dict_parser_failure_propagates sample_unicode_upper overflowing_parse
           overflow_date_data "createdAt" OverflowError []).
  - vm_compute. reflexivity.
  - left. reflexivity.
  - vm_compute. reflexivity.
  - vm_compute. reflexivity.
Defined.

Lemma from_dict_same_dates_same_record_witness :
  ∃ r2 log2',
    from_dict sample_unicode_upper (clock_parse first_of_august)
      scenario_data [] = (Ok r2, log2') ∧
    fields_equal scenario_record r2.
Proof.
  apply (from_dict_same_dates_same_record sample_unicode_upper
           (clock_parse last_of_july) (clock_parse first_of_august)
           scenario_data [] scenario_record [] []);
    vm_compute; reflexivity.
Defined.

(** With the three lines of the table, a long s is read as the S of
    SCHEDULED, as [str.upper] has it. *)
Lemma long_s_names_scheduled :
  upper sample_unicode_upper "ſcheduled" = "SCHEDULED" ∧
  ∃ r log',
    from_dict sample_unicode_upper rfc3339_utc long_s_data [] = (Ok r, log') ∧
    snapshot_type r = PSnapshotType SCHEDULED.
Proof. split; [by vm_compute|]. eexists _, _. by vm_compute. Qed.
